(** * run_container_plugin.py: the kill-containers step

    A shallow embedding of [src/run_container_plugin.py].  The Kubernetes
    client is an external collaborator: it is modelled as a [Gateway], a
    record of oracles whose answers may depend on everything that was asked
    of the cluster before (the [trace]).  Python code that calls the client
    is written in a small state-and-exception monad over that trace. *)

From Stdlib Require Import String Ascii List ZArith Lia Bool DecimalString.
Import ListNotations.
Local Open Scope string_scope.
Local Open Scope Z_scope.

Set Implicit Arguments.

(** ** Python values and exceptions *)

(** Instances of Python's [Exception] that the module can meet: the ones the
    interpreter raises for unbound names, missing attributes and bad indices,
    the client's [ApiException], the plain [Exception] of [setup_kubernetes],
    and any other [Exception] subclass of the client or transport, by name.
    [KeyboardInterrupt] and [SystemExit] are not [Exception]s; the
    interpreter raises them, the client does not, and they are not modelled. *)
Inductive exn_class : Type :=
| ApiException
| AttributeError
| NameError
| IndexError
| PlainException
| OtherException (cls : string).

Record exn : Type := mkExn { exn_cls : exn_class; exn_msg : string }.

Definition exn_class_name (c : exn_class) : string :=
  match c with
  | ApiException => "kubernetes.client.exceptions.ApiException"
  | AttributeError => "AttributeError"
  | NameError => "NameError"
  | IndexError => "IndexError"
  | PlainException => "Exception"
  | OtherException cls => cls
  end.

Definition is_ApiException (e : exn) : bool :=
  match exn_cls e with ApiException => true | _ => false end.

(** [traceback.format_exc()]: the header, the stack frames (file names and
    line numbers, left out here) and the final line [Class: message]. *)
Definition format_exc (e : exn) : string :=
  "Traceback (most recent call last):" ++ String "010" ""
  ++ exn_class_name (exn_cls e) ++ ": " ++ exn_msg e ++ String "010" "".

(** Kubernetes objects, with the attributes the module reads. *)
Record V1ObjectMeta : Type := mkMeta { meta_name : string; meta_namespace : string }.
Record V1Container : Type := mkV1Container { cont_name : string }.
Record V1PodSpec : Type := mkSpec { spec_containers : list V1Container }.
Record V1Pod : Type := mkPod { pod_metadata : V1ObjectMeta; pod_spec : V1PodSpec }.
Record V1PodList : Type := mkPodList { items : list V1Pod }.

(** [kubeconfig.config], the merged configuration dictionary. *)
Definition config_dict : Type := list (string * string).
Record ApiClient : Type := mkApiClient { configuration : config_dict }.
Record CoreV1Api : Type := mkCoreV1Api { api_client : ApiClient }.

(** The dynamically typed values that flow through [kill_containers]. *)
Inductive pyval : Type :=
| VNone
| VStr (s : string)
| VInt (z : Z)
| VCoreV1Api (api : CoreV1Api)
| VPod (p : V1Pod)
| VModule (name : string)
| VCallable (name : string).

Definition type_name (v : pyval) : string :=
  match v with
  | VNone => "NoneType"
  | VStr _ => "str"
  | VInt _ => "int"
  | VCoreV1Api _ => "CoreV1Api"
  | VPod _ => "V1Pod"
  | VModule _ => "module"
  | VCallable _ => "function"
  end.

Definition of_optional (o : option string) : pyval :=
  match o with Some s => VStr s | None => VNone end.

(** Truth value of an [Optional[str]]: [None] and the empty string are false. *)
Definition truthy (o : option string) : bool :=
  match o with
  | None => false
  | Some s => negb (String.eqb s "")
  end.

(** [str(z)] for a Python int. *)
Definition str_of_int (z : Z) : string := NilZero.string_of_int (Z.to_int z).

(** ** The cluster gateway *)

(** The keyword arguments of [connect_get_namespaced_pod_exec] as passed
    through [stream]. *)
Record exec_request : Type := mkExecRequest {
  req_pod_name : pyval;
  req_namespace : string;
  req_container : option string;
  req_command : list string;
  req_stderr : bool;
  req_stdin : bool;
  req_stdout : bool;
  req_tty : bool
}.

Inductive event : Type :=
| EvKubeConfigMerger (path : string)
| EvLoadClient (cfg : config_dict)
| EvListNamespacedPod (namespace : string) (pretty : bool) (label_selector : option string)
| EvReadNamespacedPod (name : pyval) (namespace : string)
| EvPrint (pod_info : V1Pod)
| EvExec (req : exec_request)
| EvClose.

Definition trace : Type := list event.

Inductive completion (A : Type) : Type :=
| Normal (a : A)
| Raise (e : exn).
Arguments Normal {A} a.
Arguments Raise {A} e.

(** Every operation sees the history of the session so far, so a gateway can
    answer the same request differently at different times. *)
Record Gateway : Type := mkGateway {
  KUBE_CONFIG_DEFAULT_LOCATION : string;
  gw_kube_config_merger : trace -> string -> completion (option config_dict);
  gw_load_client : trace -> config_dict -> completion ApiClient;
  gw_list_namespaced_pod : trace -> string -> option string -> completion V1PodList;
  gw_read_namespaced_pod : trace -> pyval -> string -> completion V1Pod;
  gw_exec : trace -> exec_request -> completion string;
  gw_close : trace -> completion unit;
  gw_time_ns : trace -> Z
}.

(** ** The monad: a trace threaded through code that may raise *)

Definition M (A : Type) : Type := trace -> completion A * trace.

Definition ret {A} (a : A) : M A := fun t => (Normal a, t).
Definition raise {A} (e : exn) : M A := fun t => (Raise e, t).
Definition bind {A B} (m : M A) (k : A -> M B) : M B :=
  fun t => match m t with
           | (Normal a, t') => k a t'
           | (Raise e, t') => (Raise e, t')
           end.

(** [try: m  except <handles> as e: h e]. *)
Definition try_except {A} (m : M A) (handles : exn -> bool) (h : exn -> M A) : M A :=
  fun t => match m t with
           | (Normal a, t') => (Normal a, t')
           | (Raise e, t') => if handles e then h e t' else (Raise e, t')
           end.

(** A request to the cluster: it is recorded, then answered from the history
    before it. *)
Definition ask {A} (ev : event) (answer : trace -> completion A) : M A :=
  fun t => (answer t, (t ++ [ev])%list).

Declare Scope py_scope.
Delimit Scope py_scope with py.
Notation "x <- m ;; k" := (bind m (fun x => k))
  (at level 61, m at next level, right associativity) : py_scope.
Notation "m ;;; k" := (bind m (fun _ => k))
  (at level 61, right associativity) : py_scope.
Local Open Scope py_scope.

(** ** Name resolution *)

(** The names bound at module level, in the order the module binds them. *)
Definition module_globals : list (string * pyval) :=
  [ ("sys", VModule "sys");
    ("typing", VModule "typing");
    ("dataclass", VCallable "dataclass");
    ("field", VCallable "field");
    ("format_exc", VCallable "format_exc");
    ("config", VModule "kubernetes.config");
    ("client", VModule "kubernetes.client");
    ("V1PodList", VCallable "V1PodList");
    ("V1Pod", VCallable "V1Pod");
    ("ApiException", VCallable "ApiException");
    ("V1DeleteOptions", VCallable "V1DeleteOptions");
    ("validation", VModule "arcaflow_plugin_sdk.validation");
    ("plugin", VModule "arcaflow_plugin_sdk.plugin");
    ("schema", VModule "arcaflow_plugin_sdk.schema");
    ("stream", VCallable "stream");
    ("setup_kubernetes", VCallable "setup_kubernetes");
    ("list_pods", VCallable "list_pods");
    ("exec_cmd_in_pod", VCallable "exec_cmd_in_pod");
    ("get_containers_in_pod", VCallable "get_containers_in_pod");
    ("Container", VCallable "Container");
    ("ContainerKillSuccessOutput", VCallable "ContainerKillSuccessOutput");
    ("ContainerKillErrorOutput", VCallable "ContainerKillErrorOutput");
    ("KillContainerConfig", VCallable "KillContainerConfig");
    ("kill_containers", VCallable "kill_containers") ].

(** The builtins the module mentions. *)
Definition builtins : list (string * pyval) :=
  [ ("len", VCallable "len");
    ("range", VCallable "range");
    ("int", VCallable "int");
    ("print", VCallable "print");
    ("Exception", VCallable "Exception") ].

Fixpoint assoc (name : string) (env : list (string * pyval)) : option pyval :=
  match env with
  | [] => None
  | (n, v) :: rest => if String.eqb name n then Some v else assoc name rest
  end.

(** Loading a name that is not local to the function: module globals, then
    builtins, then [NameError]. *)
Definition load_global (name : string) : M pyval :=
  match assoc name module_globals with
  | Some v => ret v
  | None =>
      match assoc name builtins with
      | Some v => ret v
      | None => raise (mkExn NameError ("name '" ++ name ++ "' is not defined"))
      end
  end.

Definition attribute_error {A} (v : pyval) (attr : string) : M A :=
  raise (mkExn AttributeError
           ("'" ++ type_name v ++ "' object has no attribute '" ++ attr ++ "'")).

(** [v.metadata] *)
Definition getattr_metadata (v : pyval) : M V1ObjectMeta :=
  match v with
  | VPod p => ret (pod_metadata p)
  | _ => attribute_error v "metadata"
  end.

(** [v.time_ns()] *)
Definition call_time_ns (gw : Gateway) (v : pyval) : M Z :=
  match v with
  | VModule "time" => fun t => (Normal (gw_time_ns gw t), t)
  | _ => attribute_error v "time_ns"
  end.

(** [tup[i]] on a tuple, with Python's negative indices. *)
Definition tuple_getitem (tup : list pyval) (i : Z) : M pyval :=
  let n := Z.of_nat (length tup) in
  let j := if i <? 0 then i + n else i in
  if (0 <=? j) && (j <? n)
  then match nth_error tup (Z.to_nat j) with
       | Some v => ret v
       | None => raise (mkExn IndexError "tuple index out of range")
       end
  else raise (mkExn IndexError "tuple index out of range").

(** [range(n)] *)
Definition range (n : Z) : list Z := map Z.of_nat (seq 0 (Z.to_nat n)).

(** ** The data classes *)

(** [@dataclass class Container]: a data class does not check the annotated
    field types when it is built, so a field holds whatever value it is given. *)
Record Container : Type := mkContainer {
  c_namespace : pyval;
  c_name : pyval;
  c_container : pyval
}.

(** [typing.Dict[int, Container]]: a Python dict keeps insertion order, and
    assigning to a key that is present replaces the value in place. *)
Definition dict : Type := list (Z * Container).

Fixpoint dict_set (d : dict) (k : Z) (v : Container) : dict :=
  match d with
  | [] => [(k, v)]
  | (k', v') :: rest =>
      if k =? k' then (k', v) :: rest else (k', v') :: dict_set rest k v
  end.


(** [ContainerKillSuccessOutput] and [ContainerKillErrorOutput], the two
    members of the step's [typing.Union]. *)
Inductive output : Type :=
| ContainerKillSuccessOutput (containers : dict)
| ContainerKillErrorOutput (error : string).

Record KillContainerConfig : Type := mkKillContainerConfig {
  namespace : string;
  container_name : option string;
  command : string;
  kill : Z;
  label_selector : option string;
  kubeconfig_path : option string
}.

(** [KillContainerConfig(namespace=ns)]: every other field at its default. *)
Definition KillContainerConfig_default (ns : string) : KillContainerConfig :=
  mkKillContainerConfig ns None "kill 1" 1 None None.

(** ** The module's functions *)

Section WithGateway.

Variable gw : Gateway.

(** [setup_kubernetes(kubeconfig_path)] *)
Definition setup_kubernetes (kubeconfig_path : option string) : M ApiClient :=
  let kubeconfig_path :=
    match kubeconfig_path with
    | None => KUBE_CONFIG_DEFAULT_LOCATION gw
    | Some p => p
    end in
  kubeconfig <- ask (EvKubeConfigMerger kubeconfig_path)
                    (fun t => gw_kube_config_merger gw t kubeconfig_path) ;;
  match kubeconfig with
  | None =>
      raise (mkExn PlainException
               ("Invalid kube-config file: " ++ kubeconfig_path
                ++ ". No configuration found."))
  | Some config =>
      ask (EvLoadClient config) (fun t => gw_load_client gw t config)
  end.

(** [logging.error(msg)], reached only if [logging] resolves. *)
Definition call_error (v : pyval) (msg : string) : M unit :=
  match v with
  | VModule "logging" => ret tt
  | _ => attribute_error v "error"
  end.

(** [list_pods(core_v1, namespace, label_selector=None)] *)
Definition list_pods (core_v1 : CoreV1Api) (namespace : string)
    (label_selector : option string) : M (list string) :=
  r <- try_except
         (if truthy label_selector
          then ask (EvListNamespacedPod namespace true label_selector)
                   (fun t => gw_list_namespaced_pod gw t namespace label_selector)
          else ask (EvListNamespacedPod namespace true None)
                   (fun t => gw_list_namespaced_pod gw t namespace None))
         is_ApiException
         (fun e =>
            logging <- load_global "logging" ;;
            call_error logging
              ("Exception when calling CoreV1Api->list_namespaced_pod: "
               ++ exn_msg e) ;;;
            raise e) ;;
  ret (map (fun pod => meta_name (pod_metadata pod)) (items r)).

(** [exec_cmd_in_pod(core_v1, command, pod_name, namespace, container=None,
    base_command="bash")] *)
Definition exec_cmd_in_pod (core_v1 : CoreV1Api) (command : string)
    (pod_name : pyval) (namespace : string) (container : option string)
    (base_command : string) : M string :=
  let exec_command := [base_command; "-c"; command] in
  try_except
    (if truthy container
     then let req := mkExecRequest pod_name namespace container exec_command
                                   true false true false in
          ask (EvExec req) (fun t => gw_exec gw t req)
     else let req := mkExecRequest pod_name namespace None exec_command
                                   true false true false in
          ask (EvExec req) (fun t => gw_exec gw t req))
    (fun _ => true)
    (fun e => raise e).

(** The defaults of the two optional parameters. *)
Definition default_container : option string := None.
Definition default_base_command : string := "bash".

(** [print(pod_info)] *)
Definition print (pod_info : V1Pod) : M unit :=
  fun t => (Normal tt, (t ++ [EvPrint pod_info])%list).

(** [get_containers_in_pod(core_v1, pod_name, namespace)] *)
Definition get_containers_in_pod (core_v1 : CoreV1Api) (pod_name : pyval)
    (namespace : string) : M (list string) :=
  pod_info <- ask (EvReadNamespacedPod pod_name namespace)
                  (fun t => gw_read_namespaced_pod gw t pod_name namespace) ;;
  print pod_info ;;;
  ret (map cont_name (spec_containers (pod_spec pod_info))).

(** [x in l] for [x : Optional[str]] and a list of strings. *)
Definition contains (x : option string) (l : list string) : bool :=
  match x with
  | None => false
  | Some s => existsb (String.eqb s) l
  end.

(** [with ctx as a: body]: [ApiClient.__enter__] gives the client itself and
    [__exit__] closes it on every way out of the body; an exception raised
    while closing replaces whatever the body completed with. *)
Definition with_as {A B} (ctx : M A) (close : M unit) (body : A -> M B) : M B :=
  a <- ctx ;;
  fun t =>
    match body a t with
    | (Normal b, t') =>
        match close t' with
        | (Normal _, t'') => (Normal b, t'')
        | (Raise e, t'') => (Raise e, t'')
        end
    | (Raise e, t') =>
        match close t' with
        | (Normal _, t'') => (Raise e, t'')
        | (Raise e', t'') => (Raise e', t'')
        end
    end.

Definition close : M unit := ask EvClose (fun t => gw_close gw t).

Definition not_enough_pods (expected found : Z) : string :=
  "Not enough pods match the criteria, expected " ++ str_of_int expected
  ++ " but found only " ++ str_of_int found ++ " pods".

Definition cannot_find_container : string :=
  "Cannot find the specified container in the pods matching the label, please check".

(** [killed_containers[int(time.time_ns())] = c], for the value the name
    [time] was loaded as: the token is the clock reading of that moment. *)
Definition store_record (killed_containers : dict) (c : Container)
    (time : pyval) : M dict :=
  now <- call_time_ns gw time ;;
  ret (dict_set killed_containers now c).

(** The [for i in range(cfg.kill)] loop.  [inl r] is a [return r] executed
    inside the loop, [inr killed_containers] is the loop running to its end. *)
Fixpoint kill_loop (cfg : KillContainerConfig) (core_v1 : CoreV1Api)
    (pods : list pyval) (indices : list Z) (killed_containers : dict)
    : M ((string * output) + dict) :=
  match indices with
  | [] => ret (inr killed_containers)
  | i :: rest =>
      pod <- tuple_getitem pods i ;;
      containers <- get_containers_in_pod core_v1 pod (namespace cfg) ;;
      if contains (container_name cfg) containers
      then
        exec_cmd_in_pod core_v1 (command cfg) pod (namespace cfg)
                        (container_name cfg) "bash" ;;;
        m1 <- getattr_metadata pod ;;
        m2 <- getattr_metadata pod ;;
        cn <- load_global "container_name" ;;
        let c := mkContainer (VStr (meta_namespace m1)) (VStr (meta_name m2)) cn in
        time <- load_global "time" ;;
        killed_containers <- store_record killed_containers c time ;;
        kill_loop cfg core_v1 pods rest killed_containers
      else
        ret (inl ("error", ContainerKillErrorOutput cannot_find_container))
  end.

(** The body of the [try] in [kill_containers]. *)
Definition kill_containers_try (cfg : KillContainerConfig) : M (string * output) :=
  r <- with_as (setup_kubernetes None) close
         (fun cli =>
            let core_v1 := mkCoreV1Api cli in
            let pods := [VCoreV1Api core_v1; of_optional (label_selector cfg);
                         VStr (namespace cfg)] in
            if Z.of_nat (length pods) <? kill cfg
            then ret (inl ("error",
                           ContainerKillErrorOutput
                             (not_enough_pods (kill cfg) (Z.of_nat (length pods)))))
            else kill_loop cfg core_v1 pods (range (kill cfg)) []) ;;
  match r with
  | inl returned => ret returned
  | inr killed_containers =>
      ret ("success", ContainerKillSuccessOutput killed_containers)
  end.

(** [kill_containers(cfg)]: [except Exception] handles every [exn]. *)
Definition kill_containers (cfg : KillContainerConfig) : M (string * output) :=
  try_except (kill_containers_try cfg)
             (fun _ => true)
             (fun e => ret ("error", ContainerKillErrorOutput (format_exc e))).

End WithGateway.

(** ** Observations on a trace *)

Definition is_exec (ev : event) : bool :=
  match ev with EvExec _ => true | _ => false end.

Definition is_list (ev : event) : bool :=
  match ev with EvListNamespacedPod _ _ _ => true | _ => false end.

Definition exec_calls (t : trace) : list event := filter is_exec t.
Definition list_calls (t : trace) : list event := filter is_list t.

(** The kubeconfig paths the run opened, in order. *)
Fixpoint config_sources (t : trace) : list string :=
  match t with
  | [] => []
  | EvKubeConfigMerger p :: rest => p :: config_sources rest
  | _ :: rest => config_sources rest
  end.

(** ** Two concrete gateways *)

Definition find_pod (name : string) (pods : list V1Pod) : option V1Pod :=
  find (fun p => String.eqb (meta_name (pod_metadata p)) name) pods.

Definition not_found : exn := mkExn ApiException "(404) Reason: Not Found".

(** A cluster that holds [pods] and answers as an API server does: a pod is
    read by its name, and a name that is no pod's name is not found. *)
Definition cluster (pods : list V1Pod) : Gateway :=
  {| KUBE_CONFIG_DEFAULT_LOCATION := "~/.kube/config";
     gw_kube_config_merger := fun _ path => Normal (Some [("source", path)]);
     gw_load_client := fun _ c => Normal (mkApiClient c);
     gw_list_namespaced_pod := fun _ ns _ =>
       Normal (mkPodList
                 (filter (fun p => String.eqb (meta_namespace (pod_metadata p)) ns)
                         pods));
     gw_read_namespaced_pod := fun _ name _ =>
       match name with
       | VStr n => match find_pod n pods with
                   | Some p => Normal p
                   | None => Raise not_found
                   end
       | _ => Raise not_found
       end;
     gw_exec := fun _ _ => Normal "";
     gw_close := fun _ => Normal tt;
     gw_time_ns := fun t => Z.of_nat (length t) |}.

Definition is_read (ev : event) : bool :=
  match ev with EvReadNamespacedPod _ _ => true | _ => false end.

(** A test double whose reads are scripted: the i-th read of the session is
    answered with the i-th pod of [pods], whatever name is asked for. *)
Definition scripted (pods : list V1Pod) : Gateway :=
  {| KUBE_CONFIG_DEFAULT_LOCATION := "~/.kube/config";
     gw_kube_config_merger := fun _ path => Normal (Some [("source", path)]);
     gw_load_client := fun _ c => Normal (mkApiClient c);
     gw_list_namespaced_pod := fun _ _ _ => Normal (mkPodList pods);
     gw_read_namespaced_pod := fun t _ _ =>
       match nth_error pods (length (filter is_read t)) with
       | Some p => Normal p
       | None => Raise not_found
       end;
     gw_exec := fun _ _ => Normal "";
     gw_close := fun _ => Normal tt;
     gw_time_ns := fun t => Z.of_nat (length t) |}.

Definition mk_pod (ns name : string) (containers : list string) : V1Pod :=
  mkPod (mkMeta name ns) (mkSpec (map mkV1Container containers)).

Definition web0 : V1Pod := mk_pod "chaos" "web-0" ["app"; "sidecar"].
Definition web1 : V1Pod := mk_pod "chaos" "web-1" ["app"; "sidecar"].
Definition web2 : V1Pod := mk_pod "chaos" "web-2" ["sidecar"].
Definition web3 : V1Pod := mk_pod "chaos" "web-3" ["app"].

Definition chaos_cfg (k : Z) : KillContainerConfig :=
  mkKillContainerConfig "chaos" (Some "app") "kill 1" k (Some "app=web") None.

Definition db0 : V1Pod := mk_pod "chaos" "db-0" ["postgres"].

Definition core0 : CoreV1Api := mkCoreV1Api (mkApiClient []).

Definition admin_cfg : KillContainerConfig :=
  mkKillContainerConfig "chaos" (Some "app") "kill 1" 1 (Some "app=web")
                        (Some "/etc/kubernetes/admin.conf").

(** ** Further observations and gateways *)

Definition is_close (ev : event) : bool :=
  match ev with EvClose => true | _ => false end.

Definition close_calls (t : trace) : list event := filter is_close t.
Definition read_calls (t : trace) : list event := filter is_read t.


(** The exec request that a turn of the loop sends for [pod]: the call
    [exec_cmd_in_pod(core_v1, cfg.command, pod, cfg.namespace,
    cfg.container_name, base_command="bash")]. *)
Definition kill_request (cfg : KillContainerConfig) (pod : pyval) : exec_request :=
  mkExecRequest pod (namespace cfg)
    (if truthy (container_name cfg) then container_name cfg else None)
    ["bash"; "-c"; command cfg] true false true false.

(** What building the record raises for [pod] once the kill is done:
    [pod.metadata] fails unless [pod] is a pod object, and then the unbound
    name [container_name] does. *)
Definition record_error (pod : pyval) : exn :=
  match pod with
  | VPod _ => mkExn NameError "name 'container_name' is not defined"
  | v => mkExn AttributeError
           ("'" ++ type_name v ++ "' object has no attribute 'metadata'")
  end.

(** Gateways that differ from a given one in a single operation. *)
Definition with_merger (gw : Gateway)
    (f : trace -> string -> completion (option config_dict)) : Gateway :=
  mkGateway (KUBE_CONFIG_DEFAULT_LOCATION gw) f (gw_load_client gw)
            (gw_list_namespaced_pod gw) (gw_read_namespaced_pod gw)
            (gw_exec gw) (gw_close gw) (gw_time_ns gw).

Definition with_list (gw : Gateway)
    (f : trace -> string -> option string -> completion V1PodList) : Gateway :=
  mkGateway (KUBE_CONFIG_DEFAULT_LOCATION gw) (gw_kube_config_merger gw)
            (gw_load_client gw) f (gw_read_namespaced_pod gw)
            (gw_exec gw) (gw_close gw) (gw_time_ns gw).

Definition with_read (gw : Gateway)
    (f : trace -> pyval -> string -> completion V1Pod) : Gateway :=
  mkGateway (KUBE_CONFIG_DEFAULT_LOCATION gw) (gw_kube_config_merger gw)
            (gw_load_client gw) (gw_list_namespaced_pod gw) f
            (gw_exec gw) (gw_close gw) (gw_time_ns gw).

Definition with_exec (gw : Gateway)
    (f : trace -> exec_request -> completion string) : Gateway :=
  mkGateway (KUBE_CONFIG_DEFAULT_LOCATION gw) (gw_kube_config_merger gw)
            (gw_load_client gw) (gw_list_namespaced_pod gw)
            (gw_read_namespaced_pod gw) f (gw_close gw) (gw_time_ns gw).

Definition with_close (gw : Gateway) (f : trace -> completion unit) : Gateway :=
  mkGateway (KUBE_CONFIG_DEFAULT_LOCATION gw) (gw_kube_config_merger gw)
            (gw_load_client gw) (gw_list_namespaced_pod gw)
            (gw_read_namespaced_pod gw) (gw_exec gw) f (gw_time_ns gw).


(** What can bring a run into the [except Exception] handler: an exception
    raised while the session is opened, by the read of a pod, by the exec
    call, by the closing of the client, or while the record is built. *)
Inductive handler_cause (gw : Gateway) : exn -> Prop :=
| cause_setup t e t' :
    setup_kubernetes gw None t = (Raise e, t') -> handler_cause gw e
| cause_read t pod ns e :
    gw_read_namespaced_pod gw t pod ns = Raise e -> handler_cause gw e
| cause_exec t req e :
    gw_exec gw t req = Raise e -> handler_cause gw e
| cause_close t e :
    gw_close gw t = Raise e -> handler_cause gw e
| cause_record pod :
    handler_cause gw (record_error pod).

(** A configuration that sets no label selector. *)
Definition no_selector_cfg : KillContainerConfig :=
  mkKillContainerConfig "chaos" (Some "app") "kill 1" 1 None None.


Definition timeout : exn :=
  mkExn (OtherException "urllib3.exceptions.MaxRetryError") "Max retries exceeded".

Definition forbidden : exn := mkExn ApiException "(403) Reason: Forbidden".

(** The state of the session once [setup_kubernetes(None)] has answered with
    the configuration [c]. *)
Definition opened (gw : Gateway) (t : trace) (c : config_dict) : trace :=
  ((t ++ [EvKubeConfigMerger (KUBE_CONFIG_DEFAULT_LOCATION gw)])
     ++ [EvLoadClient c])%list.

(** The [pods] value of [kill_containers] for the client [cli]. *)
Definition pods_tuple (cfg : KillContainerConfig) (cli : ApiClient) : list pyval :=
  [VCoreV1Api (mkCoreV1Api cli); of_optional (label_selector cfg);
   VStr (namespace cfg)].

(** ** The shape of a loop turn *)

(** What a first turn of the loop can add to the trace. *)
Inductive turn_events : trace -> Prop :=
| turn_none : turn_events []
| turn_read name ns : turn_events [EvReadNamespacedPod name ns]
| turn_checked name ns info :
    turn_events [EvReadNamespacedPod name ns; EvPrint info]
| turn_killed name ns info req :
    turn_events [EvReadNamespacedPod name ns; EvPrint info; EvExec req].

(** * Properties *)

Local Open Scope list_scope.

Arguments format_exc : simpl never.
Arguments not_enough_pods : simpl never.
Arguments cannot_find_container : simpl never.

(** ** Traces *)

Lemma exec_calls_app (t l : trace) :
  exec_calls (t ++ l) = (exec_calls t ++ exec_calls l)%list.
Proof. unfold exec_calls. apply filter_app. Qed.

Lemma list_calls_app (t l : trace) :
  list_calls (t ++ l) = (list_calls t ++ list_calls l)%list.
Proof. unfold list_calls. apply filter_app. Qed.

Lemma config_sources_app (t l : trace) :
  config_sources (t ++ l) = (config_sources t ++ config_sources l)%list.
Proof.
  induction t as [|ev t IH]; simpl; [reflexivity|].
  destruct ev; simpl; rewrite IH; reflexivity.
Qed.

Lemma range_pos (k : Z) : 1 <= k -> exists rest, range k = 0 :: rest.
Proof.
  intros Hk. unfold range.
  destruct (Z.to_nat k) as [|n] eqn:E; [lia|].
  simpl. eexists. reflexivity.
Qed.

Lemma range_nonpos (k : Z) : k <= 0 -> range k = [].
Proof.
  intros Hk. unfold range.
  replace (Z.to_nat k) with O by lia. reflexivity.
Qed.

(** ** One turn of the loop *)

Lemma tuple_getitem_trace (tup : list pyval) (i : Z) (t : trace) :
  snd (tuple_getitem tup i t) = t.
Proof.
  unfold tuple_getitem.
  destruct ((0 <=? _) && _); [|reflexivity].
  destruct (nth_error _ _); reflexivity.
Qed.

(** The loop never gets past its first turn: the turn returns the
    container-not-found error without an exec call, or raises. *)
Lemma kill_loop_cons gw cfg core_v1 pods i rest killed t :
  exists l, turn_events l /\
    match kill_loop gw cfg core_v1 pods (i :: rest) killed t with
    | (Normal (inl r), t') =>
        r = ("error", ContainerKillErrorOutput cannot_find_container)
        /\ t' = t ++ l /\ exec_calls l = []
    | (Normal (inr _), _) => False
    | (Raise _, t') => t' = t ++ l
    end.
Proof.
  cbn [kill_loop]. unfold bind.
  pose proof (tuple_getitem_trace pods i t) as Hg.
  destruct (tuple_getitem pods i t) as [[pod|e] t1]; simpl in Hg; subst t1.
  2:{ exists []. split; [constructor|]. now rewrite app_nil_r. }
  unfold get_containers_in_pod, bind, ask, print, ret.
  destruct (gw_read_namespaced_pod gw t pod (namespace cfg)) as [info|e].
  2:{ eexists. split; [apply (turn_read pod (namespace cfg))|]. reflexivity. }
  destruct (contains (container_name cfg)
              (map cont_name (spec_containers (pod_spec info)))).
  2:{ eexists. split; [apply (turn_checked pod (namespace cfg) info)|].
      repeat split. now rewrite <- app_assoc. }
  unfold exec_cmd_in_pod, try_except, ask, raise.
  set (req := if truthy (container_name cfg)
              then mkExecRequest pod (namespace cfg) (container_name cfg)
                     ["bash"; "-c"; command cfg] true false true false
              else mkExecRequest pod (namespace cfg) None
                     ["bash"; "-c"; command cfg] true false true false).
  exists [EvReadNamespacedPod pod (namespace cfg); EvPrint info; EvExec req].
  split; [constructor|].
  replace (t ++ [EvReadNamespacedPod pod (namespace cfg); EvPrint info; EvExec req])
    with (((t ++ [EvReadNamespacedPod pod (namespace cfg)]) ++ [EvPrint info])
            ++ [EvExec req])
    by (rewrite <- !app_assoc; reflexivity).
  subst req.
  destruct (truthy (container_name cfg));
    match goal with
    | |- context [gw_exec ?g ?tr ?r] => destruct (gw_exec g tr r) as [out|e]
    end;
    try reflexivity;
    destruct pod; reflexivity.
Qed.

Lemma turn_events_facts (l : trace) :
  turn_events l ->
  config_sources l = [] /\ list_calls l = []
  /\ (length (exec_calls l) <= 1)%nat.
Proof. intros H. destruct H; cbn; repeat split; lia. Qed.

(** ** A whole run *)

(** Every way a run of [kill_containers] can go.  The run always completes
    with a tagged pair; it opens the default kubeconfig location once, never
    lists pods, and issues at most one exec call. *)
Lemma kill_containers_shape gw cfg t :
  exists out l,
    kill_containers gw cfg t = (Normal out, t ++ l)
    /\ config_sources l = [KUBE_CONFIG_DEFAULT_LOCATION gw]
    /\ list_calls l = []
    /\ (length (exec_calls l) <= 1)%nat
    /\ ((out = ("success", ContainerKillSuccessOutput []) /\ kill cfg <= 0)
        \/ (out = ("error",
                   ContainerKillErrorOutput (not_enough_pods (kill cfg) 3))
            /\ 3 < kill cfg /\ exec_calls l = [])
        \/ (out = ("error", ContainerKillErrorOutput cannot_find_container)
            /\ 1 <= kill cfg <= 3 /\ exec_calls l = [])
        \/ (exists e, out = ("error", ContainerKillErrorOutput (format_exc e)))).
Proof.
  unfold kill_containers, try_except, kill_containers_try, bind, with_as, bind.
  unfold setup_kubernetes, bind, ask, close, ask, raise, ret.
  set (d := KUBE_CONFIG_DEFAULT_LOCATION gw).
  destruct (gw_kube_config_merger gw t d) as [[c|]|e].
  2:{ do 2 eexists. split; [reflexivity|]. cbn. repeat split; try lia.
      right. right. right. eexists. reflexivity. }
  2:{ do 2 eexists. split; [reflexivity|]. cbn. repeat split; try lia.
      right. right. right. eexists. reflexivity. }
  destruct (gw_load_client gw (t ++ [EvKubeConfigMerger d]) c) as [cli|e].
  2:{ exists ("error", ContainerKillErrorOutput (format_exc e)),
             [EvKubeConfigMerger d; EvLoadClient c].
      split; [now rewrite <- app_assoc|]. cbn. repeat split; try lia.
      right. right. right. eexists. reflexivity. }
  change (Z.of_nat (length [VCoreV1Api (mkCoreV1Api cli);
                            of_optional (label_selector cfg);
                            VStr (namespace cfg)])) with 3.
  set (t2 := (t ++ [EvKubeConfigMerger d]) ++ [EvLoadClient c]).
  assert (Ht2 : forall l, (t2 ++ l) ++ [EvClose]
                = t ++ (EvKubeConfigMerger d :: EvLoadClient c :: l ++ [EvClose])).
  { intros l. subst t2. rewrite <- !app_assoc. reflexivity. }
  assert (Hsrc : forall l, config_sources l = [] -> list_calls l = [] ->
            config_sources (EvKubeConfigMerger d :: EvLoadClient c :: l ++ [EvClose])
              = [d]
            /\ list_calls (EvKubeConfigMerger d :: EvLoadClient c :: l ++ [EvClose])
              = []).
  { intros l H1 H2. cbn. rewrite config_sources_app, list_calls_app, H1, H2.
      split; reflexivity. }
  assert (Hex : forall l,
            exec_calls (EvKubeConfigMerger d :: EvLoadClient c :: l ++ [EvClose])
              = exec_calls l).
  { intros l. cbn. rewrite exec_calls_app. cbn. apply app_nil_r. }
  destruct (3 <? kill cfg) eqn:E3.
  - apply Z.ltb_lt in E3.
    specialize (Ht2 []). rewrite app_nil_r in Ht2.
    destruct (Hsrc [] eq_refl eq_refl) as [Hs Hl].
    destruct (gw_close gw t2) as [[]|e]; do 2 eexists;
      (split; [rewrite Ht2; reflexivity|]);
      (split; [exact Hs|]); (split; [exact Hl|]);
      rewrite (Hex []); cbn; (split; [lia|]).
    + right. left. repeat split; assumption.
    + right. right. right. eexists. reflexivity.
  - apply Z.ltb_ge in E3.
    destruct (Z_le_gt_dec (kill cfg) 0) as [Hk|Hk].
    + rewrite (range_nonpos Hk). cbn [kill_loop]. unfold ret.
      specialize (Ht2 []). rewrite app_nil_r in Ht2.
      destruct (Hsrc [] eq_refl eq_refl) as [Hs Hl].
      destruct (gw_close gw t2) as [[]|e]; do 2 eexists;
        (split; [rewrite Ht2; reflexivity|]);
        (split; [exact Hs|]); (split; [exact Hl|]);
        rewrite (Hex []); cbn; (split; [lia|]).
      * left. split; [reflexivity|assumption].
      * right. right. right. eexists. reflexivity.
    + destruct (@range_pos (kill cfg)) as [rest ->]; [lia|].
      destruct (kill_loop_cons gw cfg (mkCoreV1Api cli)
                  [VCoreV1Api (mkCoreV1Api cli); of_optional (label_selector cfg);
                   VStr (namespace cfg)] 0 rest [] t2) as (l & Hl & Hrun).
      destruct (turn_events_facts Hl) as (Hc & Hli & Hle).
      destruct (Hsrc l Hc Hli) as [Hs Hl'].
      destruct (kill_loop _ _ _ _ _ _ _) as [[[r|k]|e] t3].
      * destruct Hrun as (-> & -> & Hno).
        destruct (gw_close gw (t2 ++ l)) as [[]|e]; do 2 eexists;
          (split; [rewrite Ht2; reflexivity|]);
          (split; [exact Hs|]); (split; [exact Hl'|]);
          rewrite (Hex l); (split; [exact Hle|]).
        -- right. right. left. repeat split; try assumption; lia.
        -- right. right. right. eexists. reflexivity.
      * contradiction.
      * subst t3.
        destruct (gw_close gw (t2 ++ l)) as [[]|e']; do 2 eexists;
          (split; [rewrite Ht2; reflexivity|]);
          (split; [exact Hs|]); (split; [exact Hl'|]);
          rewrite (Hex l); (split; [exact Hle|]);
          right; right; right; eexists; reflexivity.
Qed.

(** X18: When every call to the gateway answers and the container is found, the
    run performs the kill and then fails while it builds the record:
    [pods[0]] is the [CoreV1Api] object, which has no [metadata]. *)
Lemma kill_containers_record_building gw cfg t c cli info out :
  1 <= kill cfg <= 3 ->
  let d := KUBE_CONFIG_DEFAULT_LOCATION gw in
  let t1 := t ++ [EvKubeConfigMerger d] in
  let t2 := t1 ++ [EvLoadClient c] in
  let pod := VCoreV1Api (mkCoreV1Api cli) in
  let t3 := t2 ++ [EvReadNamespacedPod pod (namespace cfg)] in
  let t4 := t3 ++ [EvPrint info] in
  let req := mkExecRequest pod (namespace cfg)
               (if truthy (container_name cfg) then container_name cfg else None)
               ["bash"; "-c"; command cfg] true false true false in
  let t5 := t4 ++ [EvExec req] in
  gw_kube_config_merger gw t d = Normal (Some c) ->
  gw_load_client gw t1 c = Normal cli ->
  gw_read_namespaced_pod gw t2 pod (namespace cfg) = Normal info ->
  contains (container_name cfg) (map cont_name (spec_containers (pod_spec info)))
    = true ->
  gw_exec gw t4 req = Normal out ->
  gw_close gw t5 = Normal tt ->
  kill_containers gw cfg t
  = (Normal ("error",
             ContainerKillErrorOutput
               (format_exc
                  (mkExn AttributeError
                     "'CoreV1Api' object has no attribute 'metadata'"))),
     t5 ++ [EvClose]).
Proof.
  intros Hk d t1 t2 pod t3 t4 req t5 Hm Hl Hr Hc He Hx.
  unfold kill_containers, try_except, kill_containers_try, bind, with_as, bind.
  unfold setup_kubernetes, bind, ask, close, ask, raise, ret.
  fold d. rewrite Hm. fold t1. rewrite Hl. fold t2.
  change (Z.of_nat (length [VCoreV1Api (mkCoreV1Api cli);
                            of_optional (label_selector cfg);
                            VStr (namespace cfg)])) with 3.
  replace (3 <? kill cfg) with false by (symmetry; apply Z.ltb_ge; lia).
  destruct (@range_pos (kill cfg)) as [rest ->]; [lia|].
  cbn [kill_loop]. unfold bind.
  change (tuple_getitem [VCoreV1Api (mkCoreV1Api cli);
                         of_optional (label_selector cfg);
                         VStr (namespace cfg)] 0 t2) with (Normal pod, t2).
  unfold get_containers_in_pod, bind, ask, print, ret.
  rewrite Hr. fold t3 t4. rewrite Hc.
  unfold exec_cmd_in_pod, try_except, ask, raise.
  subst req. destruct (truthy (container_name cfg));
    rewrite He; fold t5; cbn [getattr_metadata pod attribute_error raise type_name];
    unfold attribute_error, raise; rewrite Hx; reflexivity.
Qed.

(** ** The claims *)

(** C4: for every configuration and every behaviour of the gateway
    (whichever of its operations raise), [kill_containers] completes
    normally with one tagged pair: "success" with a records mapping or
    "error" with a message.  No exception reaches the caller. *)
Theorem kill_containers_always_tagged gw cfg t :
  exists tag payload t',
    kill_containers gw cfg t = (Normal (tag, payload), t')
    /\ ((tag = "success"
         /\ exists records, payload = ContainerKillSuccessOutput records)
        \/ (tag = "error"
            /\ exists message, payload = ContainerKillErrorOutput message)).
Proof.
  destruct (kill_containers_shape gw cfg t) as ([tag payload] & l & Hrun & _ & _ & _ & Hout).
  exists tag, payload, (t ++ l). split; [exact Hrun|].
  destruct Hout as [[H _]|[[H _]|[[H _]|[e H]]]]; inversion H; subst.
  - left. split; [reflexivity|]. eexists. reflexivity.
  - right. split; [reflexivity|]. eexists. reflexivity.
  - right. split; [reflexivity|]. eexists. reflexivity.
  - right. split; [reflexivity|]. eexists. reflexivity.
Qed.

(** X10: No run asks the cluster for its pods: [list_pods] is never called. *)
Lemma kill_containers_never_lists gw cfg t :
  list_calls (snd (kill_containers gw cfg t)) = list_calls t.
Proof.
  destruct (kill_containers_shape gw cfg t) as (out & l & -> & _ & Hl & _).
  cbn [snd]. rewrite list_calls_app, Hl. apply app_nil_r.
Qed.

(** No run issues more than one exec call. *)
Lemma kill_containers_at_most_one_exec gw cfg t :
  (length (exec_calls (snd (kill_containers gw cfg t)))
   <= length (exec_calls t) + 1)%nat.
Proof.
  destruct (kill_containers_shape gw cfg t) as (out & l & -> & _ & _ & Hl & _).
  cbn [snd]. rewrite exec_calls_app, length_app. lia.
Qed.

(** X11: Every run opens the default kubeconfig location, whatever
    [cfg.kubeconfig_path] holds. *)
Lemma kill_containers_config_source gw cfg t :
  config_sources (snd (kill_containers gw cfg t))
  = config_sources t ++ [KUBE_CONFIG_DEFAULT_LOCATION gw].
Proof.
  destruct (kill_containers_shape gw cfg t) as (out & l & -> & Hc & _).
  cbn [snd]. rewrite config_sources_app, Hc. reflexivity.
Qed.

(** [setup_kubernetes] itself opens the path it is given. *)
Lemma setup_kubernetes_opens_given_path gw path t :
  config_sources (snd (setup_kubernetes gw (Some path) t))
  = config_sources t ++ [path].
Proof.
  unfold setup_kubernetes, bind, ask, raise.
  destruct (gw_kube_config_merger gw t path) as [[c|]|e]; cbn [snd];
    rewrite ?config_sources_app; cbn; rewrite ?app_nil_r; reflexivity.
Qed.

(** C1 (the code at two failing inputs).  With one pod discovered and two
    requested, the run does not report the shortage: the check passes and the
    run fails later, on a read.  With four pods discovered and five
    requested, the shortage is reported against 3, the length of the [pods]
    tuple, and not against the four pods of the cluster. *)
Theorem insufficiency_check_ignores_discovered_pods :
  fst (list_pods (cluster [web0]) core0 "chaos" (Some "app=web") [])
  = Normal ["web-0"]
  /\ fst (kill_containers (cluster [web0]) (chaos_cfg 2) [])
     = Normal ("error", ContainerKillErrorOutput (format_exc not_found))
  /\ fst (list_pods (cluster [web0; web1; web2; web3]) core0 "chaos"
            (Some "app=web") [])
     = Normal ["web-0"; "web-1"; "web-2"; "web-3"]
  /\ fst (kill_containers (cluster [web0; web1; web2; web3]) (chaos_cfg 5) [])
     = Normal ("error",
               ContainerKillErrorOutput
                 "Not enough pods match the criteria, expected 5 but found only 3 pods").
Proof. repeat split; vm_compute; reflexivity. Qed.

(** C2 (the code at a failing input).  Three pods match, each holds the
    container, two kills are requested and every exec succeeds: the run
    returns "error".  On a cluster it fails on the first read, which asks for
    a pod named by the [CoreV1Api] object; with scripted reads it performs one
    kill and fails while it builds the record. *)
Theorem sufficient_pods_run_returns_error :
  fst (list_pods (cluster [web0; web1; web3]) core0 "chaos" (Some "app=web") [])
  = Normal ["web-0"; "web-1"; "web-3"]
  /\ fst (kill_containers (cluster [web0; web1; web3]) (chaos_cfg 2) [])
     = Normal ("error", ContainerKillErrorOutput (format_exc not_found))
  /\ fst (kill_containers (scripted [web0; web1; web3]) (chaos_cfg 2) [])
     = Normal ("error",
               ContainerKillErrorOutput
                 (format_exc
                    (mkExn AttributeError
                       "'CoreV1Api' object has no attribute 'metadata'")))
  /\ length (exec_calls (snd (kill_containers (scripted [web0; web1; web3])
                                (chaos_cfg 2) [])))
     = 1%nat.
Proof. repeat split; vm_compute; reflexivity. Qed.

(** C3 (the code at two failing inputs).  On a cluster whose only matching
    pod lacks the container, the run does not reach the container check: it
    fails on the read.  With scripted reads where the container is present at
    positions 0 and 1 and absent at position 2, the run issues one exec call,
    not two, and ends in the exception handler. *)
Theorem missing_container_run_stops_early :
  fst (kill_containers (cluster [web2]) (chaos_cfg 1) [])
  = Normal ("error", ContainerKillErrorOutput (format_exc not_found))
  /\ fst (kill_containers (scripted [web0; web1; web2]) (chaos_cfg 3) [])
     = Normal ("error",
               ContainerKillErrorOutput
                 (format_exc
                    (mkExn AttributeError
                       "'CoreV1Api' object has no attribute 'metadata'")))
  /\ length (exec_calls (snd (kill_containers (scripted [web0; web1; web2])
                                (chaos_cfg 3) [])))
     = 1%nat.
Proof. repeat split; vm_compute; reflexivity. Qed.

(** C8 (the code at a failing input).  The configuration names
    [/etc/kubernetes/admin.conf]; the run opens the default location. *)
Theorem kubeconfig_path_is_ignored :
  kubeconfig_path admin_cfg = Some "/etc/kubernetes/admin.conf"
  /\ config_sources (snd (kill_containers (cluster [web0]) admin_cfg []))
     = ["~/.kube/config"].
Proof. split; vm_compute; reflexivity. Qed.

(** C9: [exec_cmd_in_pod] sends one exec request whose argument vector is
    [shell; "-c"; command], with stdin and tty off and stdout and stderr on,
    aimed at the named container when one is given (a non-empty name) and at
    no container otherwise; it completes as the request does, returning the
    captured output.  The default shell is "bash". *)
Theorem exec_cmd_in_pod_request gw core_v1 command pod_name namespace container shell t :
  exists req,
    exec_cmd_in_pod gw core_v1 command pod_name namespace container shell t
    = (gw_exec gw t req, t ++ [EvExec req])
    /\ req_command req = [shell; "-c"; command]
    /\ req_stdin req = false /\ req_tty req = false
    /\ req_stdout req = true /\ req_stderr req = true
    /\ req_pod_name req = pod_name /\ req_namespace req = namespace
    /\ req_container req = (if truthy container then container else None)
    /\ default_base_command = "bash"
    /\ default_container = None.
Proof.
  exists (mkExecRequest pod_name namespace
            (if truthy container then container else None)
            [shell; "-c"; command] true false true false).
  split; [|repeat split].
  unfold exec_cmd_in_pod, try_except, ask, raise.
  destruct (truthy container);
    match goal with
    | |- context [gw_exec ?g ?tr ?r] => destruct (gw_exec g tr r); reflexivity
    end.
Qed.

(** [list_pods] when the API call answers. *)
Lemma list_pods_answer gw core_v1 namespace label_selector t ret_ :
  gw_list_namespaced_pod gw t namespace
    (if truthy label_selector then label_selector else None) = Normal ret_ ->
  list_pods gw core_v1 namespace label_selector t
  = (Normal (map (fun pod => meta_name (pod_metadata pod)) (items ret_)),
     t ++ [EvListNamespacedPod namespace true
             (if truthy label_selector then label_selector else None)]).
Proof.
  intros H. unfold list_pods, bind, try_except, ask, ret.
  destruct (truthy label_selector); rewrite H; reflexivity.
Qed.

(** X4: When the API call raises an [ApiException], the handler of [list_pods]
    fails on the unbound name [logging] before it can re-raise. *)
Lemma list_pods_api_failure gw core_v1 namespace label_selector t e :
  gw_list_namespaced_pod gw t namespace
    (if truthy label_selector then label_selector else None) = Raise e ->
  is_ApiException e = true ->
  fst (list_pods gw core_v1 namespace label_selector t)
  = Raise (mkExn NameError "name 'logging' is not defined").
Proof.
  intros H He. unfold list_pods, bind, try_except, ask.
  destruct (truthy label_selector); rewrite H, He; reflexivity.
Qed.

(** C10: when the API call answers with a pod list, [list_pods] returns the
    pods' names in the order of that list, unsorted and unfiltered, after one
    list request (with the label selector when one is given); an empty pod
    list gives the empty list, not an error. *)
Theorem list_pods_keeps_api_order gw core_v1 namespace label_selector t ret_ :
  gw_list_namespaced_pod gw t namespace
    (if truthy label_selector then label_selector else None) = Normal ret_ ->
  list_pods gw core_v1 namespace label_selector t
  = (Normal (map (fun pod => meta_name (pod_metadata pod)) (items ret_)),
     t ++ [EvListNamespacedPod namespace true
             (if truthy label_selector then label_selector else None)])
  /\ (items ret_ = [] ->
      fst (list_pods gw core_v1 namespace label_selector t) = Normal []).
Proof.
  intros H. pose proof (list_pods_answer gw core_v1 namespace label_selector t H) as E.
  split; [exact E|].
  intros Hnil. rewrite E, Hnil. reflexivity.
Qed.

Lemma list_pods_keeps_api_order_witness :
  gw_list_namespaced_pod (cluster [web1; web0]) [] "chaos"
    (if truthy (Some "app=web") then Some "app=web" else None)
  = Normal (mkPodList [web1; web0])
  /\ fst (list_pods (cluster [web1; web0]) core0 "chaos" (Some "app=web") [])
     = Normal ["web-1"; "web-0"].
Proof.
  split; [reflexivity|].
  destruct (@list_pods_keeps_api_order (cluster [web1; web0]) core0 "chaos"
              (Some "app=web") [] (mkPodList [web1; web0]) eq_refl) as [E _].
  rewrite E. reflexivity.
Defined.

(** C7 (the code at a failing input).  The configuration sets no label
    selector, the case that the description of [label_selector] leaves to a
    name pattern ("Required if name_pattern is not set").  Nothing in the
    configuration can carry a pattern; the run lists no pod and matches no
    name, and ends on the read of [pods[0]].  [list_pods], the only selection
    the module has, returns every pod of the namespace, unfiltered. *)
Theorem name_pattern_selection_is_missing :
  label_selector no_selector_cfg = None
  /\ fst (kill_containers (cluster [web0; db0]) no_selector_cfg [])
     = Normal ("error", ContainerKillErrorOutput (format_exc not_found))
  /\ list_calls (snd (kill_containers (cluster [web0; db0]) no_selector_cfg []))
     = []
  /\ fst (list_pods (cluster [web0; db0]) core0 "chaos"
            (label_selector no_selector_cfg) [])
     = Normal ["web-0"; "db-0"].
Proof. repeat split; vm_compute; reflexivity. Qed.

(** * Further properties of the module *)

(** ** Equations for a run *)

(** The first turn of the loop, for the value [pod] found at its index. *)
Lemma kill_loop_first_turn gw cfg core_v1 pods i rest killed t pod :
  tuple_getitem pods i t = (Normal pod, t) ->
  kill_loop gw cfg core_v1 pods (i :: rest) killed t
  = match gw_read_namespaced_pod gw t pod (namespace cfg) with
    | Raise e => (Raise e, t ++ [EvReadNamespacedPod pod (namespace cfg)])
    | Normal info =>
        let t1 := (t ++ [EvReadNamespacedPod pod (namespace cfg)]) ++ [EvPrint info] in
        if contains (container_name cfg)
             (map cont_name (spec_containers (pod_spec info)))
        then match gw_exec gw t1 (kill_request cfg pod) with
             | Raise e => (Raise e, t1 ++ [EvExec (kill_request cfg pod)])
             | Normal _ =>
                 (Raise (record_error pod), t1 ++ [EvExec (kill_request cfg pod)])
             end
        else (Normal (inl ("error", ContainerKillErrorOutput cannot_find_container)),
              t1)
    end.
Proof.
  intros Hg. cbn [kill_loop]. unfold bind at 1. rewrite Hg.
  unfold get_containers_in_pod, bind, ask, print, ret.
  destruct (gw_read_namespaced_pod gw t pod (namespace cfg)) as [info|e];
    [|reflexivity].
  cbv zeta.
  destruct (contains (container_name cfg)
              (map cont_name (spec_containers (pod_spec info)))); [|reflexivity].
  unfold exec_cmd_in_pod, try_except, ask, raise, kill_request.
  destruct (truthy (container_name cfg));
    match goal with
    | |- context [gw_exec ?g ?tr ?r] => destruct (gw_exec g tr r) as [out|e]
    end;
    try reflexivity; destruct pod; reflexivity.
Qed.

(** How a run ends once the session is open: the body of the [with] runs from
    the opened session, the client is closed, and whatever was raised is
    turned into the error outcome. *)
Lemma kill_containers_opened gw cfg t c cli :
  gw_kube_config_merger gw t (KUBE_CONFIG_DEFAULT_LOCATION gw) = Normal (Some c) ->
  gw_load_client gw (t ++ [EvKubeConfigMerger (KUBE_CONFIG_DEFAULT_LOCATION gw)]) c
    = Normal cli ->
  kill_containers gw cfg t
  = let body :=
      if 3 <? kill cfg
      then (Normal (inl ("error",
                         ContainerKillErrorOutput (not_enough_pods (kill cfg) 3))),
            opened gw t c)
      else kill_loop gw cfg (mkCoreV1Api cli) (pods_tuple cfg cli)
                     (range (kill cfg)) [] (opened gw t c) in
    match gw_close gw (snd body) with
    | Raise e =>
        (Normal ("error", ContainerKillErrorOutput (format_exc e)),
         snd body ++ [EvClose])
    | Normal _ =>
        (Normal (match fst body with
                 | Normal (inl returned) => returned
                 | Normal (inr killed) =>
                     ("success", ContainerKillSuccessOutput killed)
                 | Raise e => ("error", ContainerKillErrorOutput (format_exc e))
                 end),
         snd body ++ [EvClose])
    end.
Proof.
  intros Hm Hl.
  unfold kill_containers, try_except, kill_containers_try, bind, with_as, bind.
  unfold setup_kubernetes, bind, ask, close, ask, raise, ret.
  rewrite Hm, Hl. fold (opened gw t c). fold (pods_tuple cfg cli).
  change (Z.of_nat (length (pods_tuple cfg cli))) with 3.
  cbv zeta.
  destruct (3 <? kill cfg).
  - cbn [fst snd]. destruct (gw_close gw (opened gw t c)) as [[]|e]; reflexivity.
  - destruct (kill_loop gw cfg (mkCoreV1Api cli) (pods_tuple cfg cli)
                (range (kill cfg)) [] (opened gw t c)) as [[[r|k]|e] t3];
      cbn [fst snd]; destruct (gw_close gw t3) as [[]|e']; reflexivity.
Qed.

(** ** [setup_kubernetes] *)

(** X1: [setup_kubernetes] opens exactly one kubeconfig source: the path it
    is given, or the default location when it is given [None].  An empty
    path is a path, not [None]. *)
Theorem setup_kubernetes_config_source gw kubeconfig_path t :
  config_sources (snd (setup_kubernetes gw kubeconfig_path t))
  = config_sources t
    ++ [match kubeconfig_path with
        | Some p => p
        | None => KUBE_CONFIG_DEFAULT_LOCATION gw
        end].
Proof.
  unfold setup_kubernetes, bind, ask, raise.
  destruct kubeconfig_path as [p|];
    match goal with
    | |- context [gw_kube_config_merger ?g ?tr ?q] =>
        destruct (gw_kube_config_merger g tr q) as [[c|]|e]
    end; cbn [snd];
    rewrite ?config_sources_app; cbn; rewrite ?app_nil_r; reflexivity.
Qed.

(** X2: when the merged kubeconfig holds no configuration,
    [setup_kubernetes] raises the plain [Exception] that names the path, and
    no client is loaded. *)
Theorem setup_kubernetes_no_configuration gw kubeconfig_path t path :
  path = match kubeconfig_path with
         | Some p => p
         | None => KUBE_CONFIG_DEFAULT_LOCATION gw
         end ->
  gw_kube_config_merger gw t path = Normal None ->
  setup_kubernetes gw kubeconfig_path t
  = (Raise (mkExn PlainException
              ("Invalid kube-config file: " ++ path
               ++ ". No configuration found.")%string),
     t ++ [EvKubeConfigMerger path]).
Proof.
  intros -> H. unfold setup_kubernetes, bind, ask, raise.
  rewrite H. reflexivity.
Qed.

Lemma setup_kubernetes_no_configuration_witness :
  setup_kubernetes (with_merger (cluster []) (fun _ _ => Normal None))
                   (Some "/tmp/empty.yaml") []
  = (Raise (mkExn PlainException
              "Invalid kube-config file: /tmp/empty.yaml. No configuration found."),
     [EvKubeConfigMerger "/tmp/empty.yaml"]).
Proof.
  apply (@setup_kubernetes_no_configuration
           (with_merger (cluster []) (fun _ _ => Normal None))
           (Some "/tmp/empty.yaml") [] "/tmp/empty.yaml");
    reflexivity.
Defined.

(** X3: when the kubeconfig is merged into a configuration,
    [setup_kubernetes] loads the client from that configuration and completes
    as the loading does: the client on success, the loader's exception
    otherwise. *)
Theorem setup_kubernetes_loads_merged_config gw kubeconfig_path t path config :
  path = match kubeconfig_path with
         | Some p => p
         | None => KUBE_CONFIG_DEFAULT_LOCATION gw
         end ->
  gw_kube_config_merger gw t path = Normal (Some config) ->
  setup_kubernetes gw kubeconfig_path t
  = (gw_load_client gw (t ++ [EvKubeConfigMerger path]) config,
     (t ++ [EvKubeConfigMerger path]) ++ [EvLoadClient config]).
Proof.
  intros -> H. unfold setup_kubernetes, bind, ask.
  rewrite H. destruct (gw_load_client _ _ _); reflexivity.
Qed.

Lemma setup_kubernetes_loads_merged_config_witness :
  setup_kubernetes (cluster []) None []
  = (Normal (mkApiClient [("source", "~/.kube/config")]),
     [EvKubeConfigMerger "~/.kube/config";
      EvLoadClient [("source", "~/.kube/config")]]).
Proof.
  apply (@setup_kubernetes_loads_merged_config (cluster []) None []
           "~/.kube/config" [("source", "~/.kube/config")]);
    reflexivity.
Defined.

(** ** [list_pods] *)

Lemma list_pods_api_failure_witness :
  fst (list_pods (with_list (cluster []) (fun _ _ _ => Raise forbidden))
                 core0 "chaos" (Some "app=web") [])
  = Raise (mkExn NameError "name 'logging' is not defined").
Proof.
  apply (@list_pods_api_failure
           (with_list (cluster []) (fun _ _ _ => Raise forbidden))
           core0 "chaos" (Some "app=web") [] forbidden);
    reflexivity.
Defined.

(** X5: an exception of the list call that is not an [ApiException] passes
    through [list_pods] unchanged. *)
Theorem list_pods_other_failure gw core_v1 namespace label_selector t e :
  gw_list_namespaced_pod gw t namespace
    (if truthy label_selector then label_selector else None) = Raise e ->
  is_ApiException e = false ->
  fst (list_pods gw core_v1 namespace label_selector t) = Raise e.
Proof.
  intros H He. unfold list_pods, bind, try_except, ask.
  destruct (truthy label_selector); rewrite H, He; reflexivity.
Qed.

Lemma list_pods_other_failure_witness :
  fst (list_pods (with_list (cluster []) (fun _ _ _ => Raise timeout))
                 core0 "chaos" None [])
  = Raise timeout.
Proof.
  apply (@list_pods_other_failure
           (with_list (cluster []) (fun _ _ _ => Raise timeout))
           core0 "chaos" None [] timeout);
    reflexivity.
Defined.

(** X6: an empty label selector is no selector: [list_pods] lists the whole
    namespace, exactly as when it is given [None]. *)
Theorem list_pods_empty_selector gw core_v1 namespace t :
  list_pods gw core_v1 namespace (Some "") t
  = list_pods gw core_v1 namespace None t.
Proof. reflexivity. Qed.

(** X7: whatever the cluster answers, [list_pods] sends one list request, for
    its namespace and with [pretty=True], and nothing else. *)
Theorem list_pods_one_request gw core_v1 namespace label_selector t :
  snd (list_pods gw core_v1 namespace label_selector t)
  = t ++ [EvListNamespacedPod namespace true
            (if truthy label_selector then label_selector else None)].
Proof.
  unfold list_pods, bind, try_except, ask.
  destruct (truthy label_selector);
    match goal with
    | |- context [gw_list_namespaced_pod ?g ?tr ?n ?l] =>
        destruct (gw_list_namespaced_pod g tr n l) as [r|e]
    end; try reflexivity;
    destruct (is_ApiException e); reflexivity.
Qed.

(** ** [exec_cmd_in_pod] and [get_containers_in_pod] *)

(** X8: an empty container name is no container name: the exec request is
    the one sent when the container is [None]. *)
Theorem exec_cmd_in_pod_empty_container gw core_v1 command pod_name namespace shell t :
  exec_cmd_in_pod gw core_v1 command pod_name namespace (Some "") shell t
  = exec_cmd_in_pod gw core_v1 command pod_name namespace None shell t.
Proof. reflexivity. Qed.

Lemma contains_iff (x : option string) (l : list string) :
  contains x l = true <-> exists s, x = Some s /\ In s l.
Proof.
  destruct x as [s|]; cbn.
  - rewrite existsb_exists. split.
    + intros (y & Hin & Heq). apply String.eqb_eq in Heq. subst y.
      exists s. split; [reflexivity|exact Hin].
    + intros (s' & Hs & Hin). inversion Hs; subst s'.
      exists s. split; [exact Hin|apply String.eqb_refl].
  - split; [discriminate|]. intros (s & Hs & _). discriminate Hs.
Qed.

(** X9: when the pod is read, [get_containers_in_pod] returns the names of
    the containers of its spec, in order, and the membership test of the loop
    holds exactly when a container of the pod bears the configured name; an
    unset name matches no container. *)
Theorem container_check_is_exact_name_match gw core_v1 pod_name namespace t info x :
  gw_read_namespaced_pod gw t pod_name namespace = Normal info ->
  exists names,
    fst (get_containers_in_pod gw core_v1 pod_name namespace t) = Normal names
    /\ names = map cont_name (spec_containers (pod_spec info))
    /\ (contains x names = true
        <-> exists c, In c (spec_containers (pod_spec info))
                      /\ x = Some (cont_name c)).
Proof.
  intros H. unfold get_containers_in_pod, bind, ask, print, ret. rewrite H.
  eexists. split; [reflexivity|]. split; [reflexivity|].
  rewrite contains_iff. split.
  - intros (s & -> & Hin). apply in_map_iff in Hin.
    destruct Hin as (c & <- & Hc). exists c. split; [exact Hc|reflexivity].
  - intros (c & Hc & ->). exists (cont_name c). split; [reflexivity|].
    apply in_map. exact Hc.
Qed.

Lemma container_check_is_exact_name_match_witness :
  exists names,
    fst (get_containers_in_pod (cluster [web0]) core0 (VStr "web-0") "chaos" [])
    = Normal names
    /\ names = ["app"; "sidecar"]
    /\ (contains (Some "App") names = true
        <-> exists c, In c (spec_containers (pod_spec web0))
                      /\ Some "App" = Some (cont_name c)).
Proof.
  apply (@container_check_is_exact_name_match (cluster [web0]) core0
           (VStr "web-0") "chaos" [] web0 (Some "App")).
  reflexivity.
Defined.

(** ** [kill_containers] *)

Lemma pods_tuple_first cfg cli t :
  tuple_getitem (pods_tuple cfg cli) 0 t = (Normal (VCoreV1Api (mkCoreV1Api cli)), t).
Proof. reflexivity. Qed.

(** The run with the session open and a kill count from 1 to 3: the first
    turn of the loop, on [pods[0]]. *)
Ltac first_turn cfg Hm Hl Hk :=
  rewrite (@kill_containers_opened _ cfg _ _ _ Hm Hl);
  replace (3 <? kill cfg) with false by (symmetry; apply Z.ltb_ge; lia);
  let rest := fresh "rest" in
  destruct (@range_pos (kill cfg)) as [rest ->]; [lia|];
  rewrite (@kill_loop_first_turn _ cfg _ _ _ _ _ _ _ (@pods_tuple_first _ _ _)).

(** A run whose [setup_kubernetes] raises. *)
Lemma setup_failure_run gw cfg t e t' :
  setup_kubernetes gw None t = (Raise e, t') ->
  kill_containers gw cfg t
  = (Normal ("error", ContainerKillErrorOutput (format_exc e)), t').
Proof.
  intros H.
  unfold kill_containers, try_except, kill_containers_try, bind, with_as, bind.
  rewrite H. reflexivity.
Qed.

(** X12: when [setup_kubernetes] raises, the run reports that exception as
    the error outcome and asks nothing more of the cluster: no read, no exec,
    no close. *)
Theorem kill_containers_setup_failure gw cfg t e t' :
  setup_kubernetes gw None t = (Raise e, t') ->
  kill_containers gw cfg t
  = (Normal ("error", ContainerKillErrorOutput (format_exc e)), t')
  /\ read_calls t' = read_calls t /\ exec_calls t' = exec_calls t
  /\ close_calls t' = close_calls t.
Proof.
  intros H. split; [exact (@setup_failure_run _ cfg _ _ _ H)|].
  revert H. unfold setup_kubernetes, bind, ask, raise.
  destruct (gw_kube_config_merger gw t (KUBE_CONFIG_DEFAULT_LOCATION gw))
    as [[c|]|e0].
  - destruct (gw_load_client _ _ _) as [cli|e1]; intros H; inversion H; subst.
    unfold read_calls, exec_calls, close_calls. rewrite !filter_app. cbn.
    rewrite !app_nil_r. repeat split.
  - intros H; inversion H; subst.
    unfold read_calls, exec_calls, close_calls. rewrite !filter_app. cbn.
    rewrite !app_nil_r. repeat split.
  - intros H; inversion H; subst.
    unfold read_calls, exec_calls, close_calls. rewrite !filter_app. cbn.
    rewrite !app_nil_r. repeat split.
Qed.

Lemma kill_containers_setup_failure_witness :
  kill_containers (with_merger (cluster [web0]) (fun _ _ => Normal None))
                  (chaos_cfg 1) []
  = (Normal ("error",
             ContainerKillErrorOutput
               (format_exc
                  (mkExn PlainException
                     "Invalid kube-config file: ~/.kube/config. No configuration found."))),
     [EvKubeConfigMerger "~/.kube/config"]).
Proof.
  apply (@kill_containers_setup_failure
           (with_merger (cluster [web0]) (fun _ _ => Normal None))
           (chaos_cfg 1) []
           (mkExn PlainException
              "Invalid kube-config file: ~/.kube/config. No configuration found.")
           [EvKubeConfigMerger "~/.kube/config"]).
  reflexivity.
Defined.

(** X13: a kill count of zero or less is not refused: with the session open
    and closed without fault, the run returns "success" with no record, and
    reads no pod. *)
Theorem kill_containers_nonpositive_kill gw cfg t c cli :
  kill cfg <= 0 ->
  gw_kube_config_merger gw t (KUBE_CONFIG_DEFAULT_LOCATION gw) = Normal (Some c) ->
  gw_load_client gw (t ++ [EvKubeConfigMerger (KUBE_CONFIG_DEFAULT_LOCATION gw)]) c
    = Normal cli ->
  gw_close gw (opened gw t c) = Normal tt ->
  kill_containers gw cfg t
  = (Normal ("success", ContainerKillSuccessOutput []),
     opened gw t c ++ [EvClose]).
Proof.
  intros Hk Hm Hl Hc.
  rewrite (@kill_containers_opened _ _ _ _ _ Hm Hl).
  replace (3 <? kill cfg) with false by (symmetry; apply Z.ltb_ge; lia).
  rewrite (range_nonpos Hk). cbn [kill_loop]. unfold ret. cbn [fst snd].
  rewrite Hc. reflexivity.
Qed.

Lemma kill_containers_nonpositive_kill_witness :
  kill_containers (cluster [web0]) (chaos_cfg 0) []
  = (Normal ("success", ContainerKillSuccessOutput []),
     [EvKubeConfigMerger "~/.kube/config";
      EvLoadClient [("source", "~/.kube/config")]; EvClose]).
Proof.
  apply (@kill_containers_nonpositive_kill (cluster [web0]) (chaos_cfg 0) []
           [("source", "~/.kube/config")]
           (mkApiClient [("source", "~/.kube/config")]));
    [simpl; lia | reflexivity | reflexivity | reflexivity].
Defined.

(** X14: a kill count above 3 is refused whatever the cluster holds: with
    the session open and closed without fault, the run returns the
    not-enough-pods error that reports 3 pods, and reads no pod. *)
Theorem kill_containers_too_many_requested gw cfg t c cli :
  3 < kill cfg ->
  gw_kube_config_merger gw t (KUBE_CONFIG_DEFAULT_LOCATION gw) = Normal (Some c) ->
  gw_load_client gw (t ++ [EvKubeConfigMerger (KUBE_CONFIG_DEFAULT_LOCATION gw)]) c
    = Normal cli ->
  gw_close gw (opened gw t c) = Normal tt ->
  kill_containers gw cfg t
  = (Normal ("error",
             ContainerKillErrorOutput (not_enough_pods (kill cfg) 3)),
     opened gw t c ++ [EvClose]).
Proof.
  intros Hk Hm Hl Hc.
  rewrite (@kill_containers_opened _ _ _ _ _ Hm Hl).
  replace (3 <? kill cfg) with true by (symmetry; apply Z.ltb_lt; lia).
  cbn [fst snd]. rewrite Hc. reflexivity.
Qed.

Lemma kill_containers_too_many_requested_witness :
  kill_containers (cluster [web0; web1; web2; web3; db0]) (chaos_cfg 4) []
  = (Normal ("error",
             ContainerKillErrorOutput
               "Not enough pods match the criteria, expected 4 but found only 3 pods"),
     [EvKubeConfigMerger "~/.kube/config";
      EvLoadClient [("source", "~/.kube/config")]; EvClose]).
Proof.
  apply (@kill_containers_too_many_requested
           (cluster [web0; web1; web2; web3; db0]) (chaos_cfg 4) []
           [("source", "~/.kube/config")]
           (mkApiClient [("source", "~/.kube/config")]));
    [simpl; lia | reflexivity | reflexivity | reflexivity].
Defined.

Lemma turn_events_no_close (l : trace) : turn_events l -> close_calls l = [].
Proof. intros H. destruct H; reflexivity. Qed.

(** X15: once the client is loaded, every run closes it exactly once, as the
    last thing it asks, whatever happens in between. *)
Theorem kill_containers_closes_session gw cfg t c cli :
  gw_kube_config_merger gw t (KUBE_CONFIG_DEFAULT_LOCATION gw) = Normal (Some c) ->
  gw_load_client gw (t ++ [EvKubeConfigMerger (KUBE_CONFIG_DEFAULT_LOCATION gw)]) c
    = Normal cli ->
  exists body,
    snd (kill_containers gw cfg t) = (opened gw t c ++ body) ++ [EvClose]
    /\ close_calls body = [].
Proof.
  intros Hm Hl.
  rewrite (@kill_containers_opened _ _ _ _ _ Hm Hl). cbv zeta.
  assert (Hb : exists body,
             snd (if 3 <? kill cfg
                  then (Normal (inl ("error",
                                     ContainerKillErrorOutput
                                       (not_enough_pods (kill cfg) 3))),
                        opened gw t c)
                  else kill_loop gw cfg (mkCoreV1Api cli) (pods_tuple cfg cli)
                                 (range (kill cfg)) [] (opened gw t c))
             = opened gw t c ++ body /\ close_calls body = []).
  { destruct (3 <? kill cfg).
    - exists []. cbn [snd]. rewrite app_nil_r. split; reflexivity.
    - destruct (Z_le_gt_dec (kill cfg) 0) as [Hk|Hk].
      + rewrite (range_nonpos Hk). exists []. cbn. rewrite app_nil_r.
        split; reflexivity.
      + destruct (@range_pos (kill cfg)) as [rest ->]; [lia|].
        destruct (kill_loop_cons gw cfg (mkCoreV1Api cli) (pods_tuple cfg cli)
                    0 rest [] (opened gw t c)) as (l & Hl' & Hrun).
        exists l. split; [|apply turn_events_no_close; exact Hl'].
        destruct (kill_loop _ _ _ _ _ _ _) as [[[r|k]|e] t3]; cbn [snd].
        * destruct Hrun as (_ & -> & _). reflexivity.
        * contradiction.
        * exact Hrun. }
  destruct Hb as (body & Hs & Hc). exists body. split; [|exact Hc].
  rewrite <- Hs.
  match goal with
  | |- context [gw_close ?g ?tr] => destruct (gw_close g tr) as [[]|e]
  end; reflexivity.
Qed.

Lemma kill_containers_closes_session_witness :
  exists body,
    snd (kill_containers (scripted [web0]) (chaos_cfg 1) [])
    = (opened (scripted [web0]) [] [("source", "~/.kube/config")] ++ body)
        ++ [EvClose]
    /\ close_calls body = [].
Proof.
  apply (@kill_containers_closes_session (scripted [web0]) (chaos_cfg 1) []
           [("source", "~/.kube/config")]
           (mkApiClient [("source", "~/.kube/config")]));
    reflexivity.
Defined.

(** X16: an exception raised while the client is closed replaces the outcome
    of the run, whatever that outcome was: the run reports the closing
    exception as the error. *)
Theorem kill_containers_close_failure gw cfg t c cli e :
  gw_kube_config_merger gw t (KUBE_CONFIG_DEFAULT_LOCATION gw) = Normal (Some c) ->
  gw_load_client gw (t ++ [EvKubeConfigMerger (KUBE_CONFIG_DEFAULT_LOCATION gw)]) c
    = Normal cli ->
  (forall t', gw_close gw t' = Raise e) ->
  fst (kill_containers gw cfg t)
  = Normal ("error", ContainerKillErrorOutput (format_exc e)).
Proof.
  intros Hm Hl Hc.
  rewrite (@kill_containers_opened _ _ _ _ _ Hm Hl). cbv zeta.
  rewrite Hc. reflexivity.
Qed.

Lemma kill_containers_close_failure_witness :
  fst (kill_containers (with_close (cluster [web0]) (fun _ => Raise timeout))
                       (chaos_cfg 0) [])
  = Normal ("error", ContainerKillErrorOutput (format_exc timeout)).
Proof.
  apply (@kill_containers_close_failure
           (with_close (cluster [web0]) (fun _ => Raise timeout))
           (chaos_cfg 0) [] [("source", "~/.kube/config")]
           (mkApiClient [("source", "~/.kube/config")]) timeout);
    reflexivity.
Defined.

(** X17: with a kill count from 1 to 3, when the object read for [pods[0]]
    has no container of the configured name, the run returns the
    container-not-found error and has issued no exec call. *)
Theorem kill_containers_container_not_found gw cfg t c cli info :
  1 <= kill cfg <= 3 ->
  let pod := VCoreV1Api (mkCoreV1Api cli) in
  let t3 := (opened gw t c ++ [EvReadNamespacedPod pod (namespace cfg)])
              ++ [EvPrint info] in
  gw_kube_config_merger gw t (KUBE_CONFIG_DEFAULT_LOCATION gw) = Normal (Some c) ->
  gw_load_client gw (t ++ [EvKubeConfigMerger (KUBE_CONFIG_DEFAULT_LOCATION gw)]) c
    = Normal cli ->
  gw_read_namespaced_pod gw (opened gw t c) pod (namespace cfg) = Normal info ->
  contains (container_name cfg) (map cont_name (spec_containers (pod_spec info)))
    = false ->
  gw_close gw t3 = Normal tt ->
  kill_containers gw cfg t
  = (Normal ("error", ContainerKillErrorOutput cannot_find_container),
     t3 ++ [EvClose])
  /\ exec_calls (t3 ++ [EvClose]) = exec_calls t.
Proof.
  intros Hk pod t3 Hm Hl Hr Hc Hx.
  split.
  - first_turn cfg Hm Hl Hk. fold pod. rewrite Hr. cbv zeta. rewrite Hc.
    cbn [fst snd]. fold t3. rewrite Hx. reflexivity.
  - subst t3. unfold opened. rewrite !exec_calls_app. cbn.
    rewrite !app_nil_r. reflexivity.
Qed.

Lemma kill_containers_container_not_found_witness :
  fst (kill_containers (scripted [web2]) (chaos_cfg 1) [])
  = Normal ("error", ContainerKillErrorOutput cannot_find_container)
  /\ exec_calls (snd (kill_containers (scripted [web2]) (chaos_cfg 1) [])) = [].
Proof.
  destruct (@kill_containers_container_not_found (scripted [web2]) (chaos_cfg 1)
              [] [("source", "~/.kube/config")]
              (mkApiClient [("source", "~/.kube/config")]) web2)
    as [E X]; [simpl; lia | reflexivity | reflexivity | reflexivity | reflexivity
              | reflexivity |].
  rewrite E. split; [reflexivity|exact X].
Defined.

Lemma kill_containers_record_building_witness :
  kill_containers (scripted [web0]) (chaos_cfg 1) []
  = (Normal ("error",
             ContainerKillErrorOutput
               (format_exc
                  (mkExn AttributeError
                     "'CoreV1Api' object has no attribute 'metadata'"))),
     snd (kill_containers (scripted [web0]) (chaos_cfg 1) []))
  /\ length (exec_calls (snd (kill_containers (scripted [web0]) (chaos_cfg 1) [])))
     = 1%nat.
Proof.
  pose proof (@kill_containers_record_building (scripted [web0]) (chaos_cfg 1)
                [] [("source", "~/.kube/config")]
                (mkApiClient [("source", "~/.kube/config")]) web0 "") as H.
  cbv zeta in H.
  rewrite H; [split; reflexivity | simpl; lia | reflexivity | reflexivity
              | reflexivity | reflexivity | reflexivity | reflexivity].
Defined.

(** X21: when the exec call raises, the run reports that exception as the
    error outcome; the call is on the trace and the client is still closed. *)
Theorem kill_containers_exec_failure gw cfg t c cli info e :
  1 <= kill cfg <= 3 ->
  let pod := VCoreV1Api (mkCoreV1Api cli) in
  let t3 := (opened gw t c ++ [EvReadNamespacedPod pod (namespace cfg)])
              ++ [EvPrint info] in
  let t4 := t3 ++ [EvExec (kill_request cfg pod)] in
  gw_kube_config_merger gw t (KUBE_CONFIG_DEFAULT_LOCATION gw) = Normal (Some c) ->
  gw_load_client gw (t ++ [EvKubeConfigMerger (KUBE_CONFIG_DEFAULT_LOCATION gw)]) c
    = Normal cli ->
  gw_read_namespaced_pod gw (opened gw t c) pod (namespace cfg) = Normal info ->
  contains (container_name cfg) (map cont_name (spec_containers (pod_spec info)))
    = true ->
  gw_exec gw t3 (kill_request cfg pod) = Raise e ->
  gw_close gw t4 = Normal tt ->
  kill_containers gw cfg t
  = (Normal ("error", ContainerKillErrorOutput (format_exc e)), t4 ++ [EvClose]).
Proof.
  intros Hk pod t3 t4 Hm Hl Hr Hc He Hx.
  first_turn cfg Hm Hl Hk. fold pod. rewrite Hr. cbv zeta. rewrite Hc.
  fold t3. rewrite He. cbn [fst snd]. fold t4. rewrite Hx. reflexivity.
Qed.

Lemma kill_containers_exec_failure_witness :
  fst (kill_containers (with_exec (scripted [web0]) (fun _ _ => Raise timeout))
                       (chaos_cfg 1) [])
  = Normal ("error", ContainerKillErrorOutput (format_exc timeout)).
Proof.
  pose proof (@kill_containers_exec_failure
                (with_exec (scripted [web0]) (fun _ _ => Raise timeout))
                (chaos_cfg 1) [] [("source", "~/.kube/config")]
                (mkApiClient [("source", "~/.kube/config")]) web0 timeout) as H.
  cbv zeta in H.
  rewrite H; [reflexivity | simpl; lia | reflexivity | reflexivity | reflexivity
              | reflexivity | reflexivity | reflexivity].
Defined.

(** X22: when the read of [pods[0]] raises, the run reports that exception
    as the error outcome and has issued no exec call. *)
Theorem kill_containers_read_failure gw cfg t c cli e :
  1 <= kill cfg <= 3 ->
  let pod := VCoreV1Api (mkCoreV1Api cli) in
  let t3 := opened gw t c ++ [EvReadNamespacedPod pod (namespace cfg)] in
  gw_kube_config_merger gw t (KUBE_CONFIG_DEFAULT_LOCATION gw) = Normal (Some c) ->
  gw_load_client gw (t ++ [EvKubeConfigMerger (KUBE_CONFIG_DEFAULT_LOCATION gw)]) c
    = Normal cli ->
  gw_read_namespaced_pod gw (opened gw t c) pod (namespace cfg) = Raise e ->
  gw_close gw t3 = Normal tt ->
  kill_containers gw cfg t
  = (Normal ("error", ContainerKillErrorOutput (format_exc e)), t3 ++ [EvClose])
  /\ exec_calls (t3 ++ [EvClose]) = exec_calls t.
Proof.
  intros Hk pod t3 Hm Hl Hr Hx.
  split.
  - first_turn cfg Hm Hl Hk. fold pod. rewrite Hr. cbn [fst snd]. fold t3.
    rewrite Hx. reflexivity.
  - subst t3. unfold opened. rewrite !exec_calls_app. cbn.
    rewrite !app_nil_r. reflexivity.
Qed.

Lemma kill_containers_read_failure_witness :
  fst (kill_containers (cluster [web0]) (chaos_cfg 1) [])
  = Normal ("error", ContainerKillErrorOutput (format_exc not_found)).
Proof.
  destruct (@kill_containers_read_failure (cluster [web0]) (chaos_cfg 1) []
              [("source", "~/.kube/config")]
              (mkApiClient [("source", "~/.kube/config")]) not_found)
    as [E _]; [simpl; lia | reflexivity | reflexivity | reflexivity
              | reflexivity |].
  rewrite E. reflexivity.
Defined.

(** How [setup_kubernetes(None)] can answer: it raises before any pod is
    touched, or the session is open. *)
Lemma setup_kubernetes_cases gw t :
  (exists e t', setup_kubernetes gw None t = (Raise e, t')
                /\ exec_calls t' = exec_calls t)
  \/ (exists c cli,
        gw_kube_config_merger gw t (KUBE_CONFIG_DEFAULT_LOCATION gw) = Normal (Some c)
        /\ gw_load_client gw
             (t ++ [EvKubeConfigMerger (KUBE_CONFIG_DEFAULT_LOCATION gw)]) c
           = Normal cli).
Proof.
  unfold setup_kubernetes, bind, ask, raise.
  destruct (gw_kube_config_merger gw t (KUBE_CONFIG_DEFAULT_LOCATION gw))
    as [[c|]|e].
  - destruct (gw_load_client gw
                (t ++ [EvKubeConfigMerger (KUBE_CONFIG_DEFAULT_LOCATION gw)]) c)
      as [cli|e] eqn:Hl.
    + right. exists c, cli. split; [reflexivity|exact Hl].
    + left. do 2 eexists. split; [reflexivity|].
      rewrite !exec_calls_app. cbn. rewrite !app_nil_r. reflexivity.
  - left. do 2 eexists. split; [reflexivity|].
    rewrite exec_calls_app. cbn. apply app_nil_r.
  - left. do 2 eexists. split; [reflexivity|].
    rewrite exec_calls_app. cbn. apply app_nil_r.
Qed.

Lemma exec_calls_opened gw t c : exec_calls (opened gw t c) = exec_calls t.
Proof.
  unfold opened. rewrite !exec_calls_app. cbn. rewrite !app_nil_r. reflexivity.
Qed.

(** The exec calls of a run: none, or the one kill request, sent for the
    [CoreV1Api] object after a pod was read that holds the container. *)
Lemma kill_containers_execs gw cfg t :
  exists l,
    exec_calls (snd (kill_containers gw cfg t)) = exec_calls t ++ l
    /\ (l = []
        \/ exists cli info,
             l = [EvExec (kill_request cfg (VCoreV1Api (mkCoreV1Api cli)))]
             /\ contains (container_name cfg)
                  (map cont_name (spec_containers (pod_spec info))) = true).
Proof.
  destruct (setup_kubernetes_cases gw t) as [(e & t' & Hs & Hx)|(c & cli & Hm & Hl)].
  - rewrite (@setup_failure_run _ cfg _ _ _ Hs). cbn [snd].
    exists []. rewrite Hx, app_nil_r. split; [reflexivity|left; reflexivity].
  - rewrite (@kill_containers_opened _ cfg _ _ _ Hm Hl). cbv zeta.
    assert (Hfin : forall body : completion ((string * output) + dict) * trace,
               exec_calls
                 (snd (match gw_close gw (snd body) with
                       | Raise e =>
                           (Normal ("error", ContainerKillErrorOutput (format_exc e)),
                            snd body ++ [EvClose])
                       | Normal _ =>
                           (Normal (match fst body with
                                    | Normal (inl returned) => returned
                                    | Normal (inr killed) =>
                                        ("success", ContainerKillSuccessOutput killed)
                                    | Raise e =>
                                        ("error",
                                         ContainerKillErrorOutput (format_exc e))
                                    end),
                            snd body ++ [EvClose])
                       end))
               = exec_calls (snd body)).
    { intros body. destruct (gw_close gw (snd body)) as [[]|e]; cbn [snd];
        rewrite exec_calls_app; cbn; apply app_nil_r. }
    rewrite Hfin. clear Hfin.
    destruct (3 <? kill cfg).
    { exists []. cbn [snd]. rewrite exec_calls_opened, app_nil_r.
      split; [reflexivity|left; reflexivity]. }
    destruct (Z_le_gt_dec (kill cfg) 0) as [Hk|Hk].
    { rewrite (range_nonpos Hk). exists []. cbn.
      rewrite exec_calls_opened, app_nil_r.
      split; [reflexivity|left; reflexivity]. }
    destruct (@range_pos (kill cfg)) as [rest ->]; [lia|].
    rewrite (@kill_loop_first_turn _ cfg _ _ _ _ _ _ _ (@pods_tuple_first _ _ _)).
    destruct (gw_read_namespaced_pod gw (opened gw t c)
                (VCoreV1Api (mkCoreV1Api cli)) (namespace cfg)) as [info|e].
    2:{ exists []. cbn [snd]. rewrite exec_calls_app, exec_calls_opened. cbn.
        split; [reflexivity|left; reflexivity]. }
    cbv zeta.
    destruct (contains (container_name cfg)
                (map cont_name (spec_containers (pod_spec info)))) eqn:Hc.
    2:{ exists []. cbn [snd]. rewrite !exec_calls_app, exec_calls_opened. cbn.
        rewrite !app_nil_r. split; [reflexivity|left; reflexivity]. }
    exists [EvExec (kill_request cfg (VCoreV1Api (mkCoreV1Api cli)))].
    split; [|right; exists cli, info; split; [reflexivity|exact Hc]].
    match goal with
    | |- context [gw_exec ?g ?tr ?r] => destruct (gw_exec g tr r) as [out|e]
    end; cbn [snd]; rewrite !exec_calls_app, exec_calls_opened; cbn;
      rewrite !app_nil_r; reflexivity.
Qed.

(** X19: when no container name is configured, no run issues an exec call,
    whatever the cluster answers. *)
Theorem kill_containers_unset_container_never_kills gw cfg t :
  container_name cfg = None ->
  exec_calls (snd (kill_containers gw cfg t)) = exec_calls t.
Proof.
  intros Hn.
  destruct (kill_containers_execs gw cfg t) as (l & -> & [->|(cli & info & _ & Hc)]).
  - apply app_nil_r.
  - rewrite Hn in Hc. discriminate Hc.
Qed.

Lemma kill_containers_unset_container_never_kills_witness :
  exec_calls (snd (kill_containers (scripted [web0])
                     (KillContainerConfig_default "chaos") []))
  = [].
Proof.
  apply (@kill_containers_unset_container_never_kills (scripted [web0])
           (KillContainerConfig_default "chaos") []).
  reflexivity.
Defined.

(** X20: the exec calls a run adds are none, or exactly one: [bash -c
    cfg.command] in [cfg.namespace], with stdin and tty off, for the
    configured container, and addressed to the [CoreV1Api] object in the
    place of a pod name. *)
Theorem kill_containers_exec_request gw cfg t :
  exists l,
    exec_calls (snd (kill_containers gw cfg t)) = exec_calls t ++ l
    /\ (l = []
        \/ exists cli,
             l = [EvExec (mkExecRequest
                            (VCoreV1Api (mkCoreV1Api cli)) (namespace cfg)
                            (if truthy (container_name cfg)
                             then container_name cfg else None)
                            ["bash"; "-c"; command cfg] true false true false)]).
Proof.
  destruct (kill_containers_execs gw cfg t) as (l & E & [->|(cli & info & -> & _)]).
  - exists []. split; [exact E|left; reflexivity].
  - eexists. split; [exact E|]. right. exists cli. reflexivity.
Qed.

(** X23: the label selector and the kubeconfig path of the configuration
    have no effect on a run: two configurations that agree on the other
    fields give the same outcome and the same trace. *)
Theorem kill_containers_ignores_selector_and_kubeconfig
    gw ns cn cmd k sel sel' kc kc' t :
  kill_containers gw (mkKillContainerConfig ns cn cmd k sel kc) t
  = kill_containers gw (mkKillContainerConfig ns cn cmd k sel' kc') t.
Proof.
  destruct (setup_kubernetes_cases gw t) as [(e & t' & Hs & _)|(c & cli & Hm & Hl)].
  - rewrite !(@setup_failure_run _ _ _ _ _ Hs). reflexivity.
  - rewrite !(@kill_containers_opened _ _ _ _ _ Hm Hl). cbn [kill].
    destruct (3 <? k); [reflexivity|].
    destruct (Z_le_gt_dec k 0) as [Hk|Hk].
    + rewrite (range_nonpos Hk). reflexivity.
    + destruct (@range_pos k) as [rest ->]; [lia|].
      rewrite !(@kill_loop_first_turn _ _ _ _ _ _ _ _ _ (@pods_tuple_first _ _ _)).
      reflexivity.
Qed.

(** ** The records mapping *)








(** C5 (counterexample).  One kill is requested, the check passes, and the
    read of [pods[0]] raises: the run ends in the handler with that
    exception, before any exec call and so before any record is built; the
    message is neither the container-not-found text nor the trace of an
    exception that building the record can raise. *)
Lemma handler_triggered_by_read :
  1 <= kill (chaos_cfg 1) <= 3
  /\ fst (kill_containers (cluster [web0]) (chaos_cfg 1) [])
     = Normal ("error", ContainerKillErrorOutput (format_exc not_found))
  /\ exec_calls (snd (kill_containers (cluster [web0]) (chaos_cfg 1) [])) = []
  /\ format_exc not_found <> cannot_find_container
  /\ forall pod, format_exc not_found <> format_exc (record_error pod).
Proof.
  split; [cbn; lia|]. split; [vm_compute; reflexivity|].
  split; [vm_compute; reflexivity|].
  split; [vm_compute; discriminate|].
  intros pod H. destruct pod; vm_compute in H; discriminate H.
Qed.

(** C5 (amended): with a kill count of at least 1 that passes the
    insufficiency check (the check compares with the three members of the
    [pods] tuple), no behaviour of the gateway makes [kill_containers] return
    "success".  The run ends in the "error" outcome: through the
    container-not-found branch, or through the exception handler, reached by
    an exception raised while the session is opened, by the read of the pod,
    by the exec call, by the closing of the client, or while the success
    record is built. *)
Theorem kill_containers_error_paths gw cfg t :
  1 <= kill cfg -> kill cfg <= 3 ->
  exists message t',
    kill_containers gw cfg t
    = (Normal ("error", ContainerKillErrorOutput message), t')
    /\ (message = cannot_find_container
        \/ exists e, message = format_exc e /\ handler_cause gw e).
Proof.
  intros H1 H3.
  destruct (setup_kubernetes_cases gw t) as [(e & t' & Hs & _)|(c & cli & Hm & Hl)].
  { rewrite (@setup_failure_run _ cfg _ _ _ Hs). do 2 eexists.
    split; [reflexivity|]. right. exists e. split; [reflexivity|].
    exact (cause_setup _ _ Hs). }
  first_turn cfg Hm Hl H1.
  destruct (gw_read_namespaced_pod gw (opened gw t c)
              (VCoreV1Api (mkCoreV1Api cli)) (namespace cfg)) as [info|e] eqn:Hr.
  2:{ cbn [fst snd].
      match goal with
      | |- context [gw_close ?g ?tr] => destruct (gw_close g tr) as [[]|e'] eqn:Hx
      end; do 2 eexists; (split; [reflexivity|]); right; eexists;
        (split; [reflexivity|]).
      - exact (cause_read _ _ _ _ Hr).
      - exact (cause_close _ _ Hx). }
  cbv zeta.
  destruct (contains (container_name cfg)
              (map cont_name (spec_containers (pod_spec info)))).
  2:{ cbn [fst snd].
      match goal with
      | |- context [gw_close ?g ?tr] => destruct (gw_close g tr) as [[]|e'] eqn:Hx
      end; do 2 eexists; (split; [reflexivity|]).
      - left. reflexivity.
      - right. eexists. split; [reflexivity|]. exact (cause_close _ _ Hx). }
  match goal with
  | |- context [gw_exec ?g ?tr ?r] => destruct (gw_exec g tr r) as [out|e] eqn:He
  end; cbn [fst snd];
    match goal with
    | |- context [gw_close ?g ?tr] => destruct (gw_close g tr) as [[]|e'] eqn:Hx
    end; do 2 eexists; (split; [reflexivity|]); right; eexists;
      (split; [reflexivity|]).
  - apply cause_record.
  - exact (cause_close _ _ Hx).
  - exact (cause_exec _ _ _ He).
  - exact (cause_close _ _ Hx).
Qed.

Lemma kill_containers_error_paths_witness :
  1 <= kill (chaos_cfg 1) /\ kill (chaos_cfg 1) <= 3 /\
  exists message t',
    kill_containers (scripted [web0]) (chaos_cfg 1) []
    = (Normal ("error", ContainerKillErrorOutput message), t')
    /\ (message = cannot_find_container
        \/ exists e, message = format_exc e /\ handler_cause (scripted [web0]) e).
Proof.
  split; [simpl; lia|]. split; [simpl; lia|].
  apply (@kill_containers_error_paths (scripted [web0]) (chaos_cfg 1) []);
    simpl; lia.
Defined.
